(** * lib/sqlalchemy/log.py: per-instance log verbosity over the logging module

    A shallow embedding of [log.py].  The hierarchical logging facility the
    module wraps (Python's [logging]) is modelled in [Module logging] as far
    as [log.py] consumes it: a registry of loggers keyed by dotted name, the
    manager-wide [disable] threshold, the effective-level walk, handler lists
    and the low-level emit primitive [_log], whose invocations are recorded
    in a trace.  Everything after that module follows [log.py] definition by
    definition, with the backend state passed explicitly. *)

From Stdlib Require Import ZArith Bool List Lia Ascii String.
From stdpp Require Import base gmap strings list.

Local Open Scope Z_scope.

(** ** The logging backend as consumed by log.py *)

Module logging.

(** Severity constants of the logging module. *)
Definition NOTSET : Z := 0.
Definition DEBUG : Z := 10.
Definition INFO : Z := 20.
Definition WARNING : Z := 30.
Definition WARN : Z := WARNING.
Definition ERROR : Z := 40.
Definition CRITICAL : Z := 50.

Inductive Stream := stdout | stderr.

(** [logging.StreamHandler(stream)] with the format string given to
    [setFormatter] ([None] until a formatter is set). *)
Record Handler := mkHandler {
  stream : Stream;
  formatter : option string
}.

Definition StreamHandler (s : Stream) : Handler :=
  {| stream := s; formatter := None |}.

Definition setFormatter (h : Handler) (fmt : string) : Handler :=
  {| stream := stream h; formatter := Some fmt |}.

(** The fields of a [logging.Logger] that log.py reads or writes. *)
Record Logger := mkLogger {
  level : Z;
  handlers : list Handler;
  disabled : bool
}.

(** A logger as [Logger.__init__] leaves it. *)
Definition new_Logger : Logger :=
  {| level := NOTSET; handlers := []; disabled := false |}.

(** One invocation of the emit primitive [Logger._log]. *)
Record LogCall := mkLogCall {
  lc_logger : string;
  lc_level : Z;
  lc_msg : string;
  lc_args : list string;
  lc_kwargs : gmap string Z
}.

(** The manager: [disable] is [Logger.manager.disable]; [loggerDict] is the
    registry of named loggers; [root] ends every parent chain; [log_calls]
    is the trace of [_log] invocations, oldest first. *)
Record State := mkState {
  disable : Z;
  root : Logger;
  loggerDict : gmap string Logger;
  log_calls : list LogCall
}.

Definition set_loggerDict (st : State) (d : gmap string Logger) : State :=
  {| disable := disable st; root := root st; loggerDict := d;
     log_calls := log_calls st |}.

(** A logger handle is the logger's name; a name never registered reads as
    a logger fresh from [getLogger]. *)
Definition logger_at (st : State) (name : string) : Logger :=
  default new_Logger (loggerDict st !! name).

(** [logging.getLogger(name)]: the registered logger, created on first use. *)
Definition getLogger (name : string) (st : State) : State :=
  match loggerDict st !! name with
  | Some _ => st
  | None => set_loggerDict st (<[name := new_Logger]> (loggerDict st))
  end.

(** The prefixes of a dotted name that end just before a "." which is not
    its first character, shortest first. *)
Fixpoint dotted_prefixes (pre s : string) : list string :=
  match s with
  | EmptyString => []
  | String c s' =>
      let rest := dotted_prefixes (pre +:+ String c EmptyString) s' in
      if Ascii.eqb c "."%char && negb (String.eqb pre EmptyString)
      then pre :: rest else rest
  end.

(** The names a logger's parent chain can go through, nearest first. *)
Definition ancestors (name : string) : list string :=
  rev (dotted_prefixes EmptyString name).

(** The loop of [Logger.getEffectiveLevel]: the first level that is set
    (non-zero) along the chain, ending at the root logger. *)
Fixpoint first_set_level (st : State) (chain : list string) : Z :=
  match chain with
  | [] => level (root st)
  | n :: rest =>
      let lv := level (logger_at st n) in
      if lv =? NOTSET then first_set_level st rest else lv
  end.

Definition getEffectiveLevel (st : State) (name : string) : Z :=
  first_set_level st (name :: ancestors name).

(** [Logger.isEnabledFor(level)]. *)
Definition isEnabledFor (st : State) (name : string) (lvl : Z) : bool :=
  if disabled (logger_at st name) then false
  else if disable st >=? lvl then false
  else lvl >=? getEffectiveLevel st name.

(** [Logger.addHandler(hdlr)] for a handler object that was just built
    (so it is not yet in the list): it is appended. *)
Definition addHandler (name : string) (h : Handler) (st : State) : State :=
  let l := logger_at st name in
  set_loggerDict st
    (<[name := {| level := level l; handlers := handlers l ++ [h];
                  disabled := disabled l |}]> (loggerDict st)).

(** [Logger._log(level, msg, args, **kwargs)]: no level check of its own;
    the call is recorded. *)
Definition _log (name : string) (lvl : Z) (msg : string)
    (args : list string) (kwargs : gmap string Z) (st : State) : State :=
  {| disable := disable st; root := root st; loggerDict := loggerDict st;
     log_calls := log_calls st ++
       [ {| lc_logger := name; lc_level := lvl; lc_msg := msg;
            lc_args := args; lc_kwargs := kwargs |} ] |}.

(** [Logger.setLevel(level)] with an integer level. *)
Definition setLevel (name : string) (lvl : Z) (st : State) : State :=
  let l := logger_at st name in
  set_loggerDict st
    (<[name := {| level := lvl; handlers := handlers l;
                  disabled := disabled l |}]> (loggerDict st)).

(** *** Call stacks and the caller [_log] reports *)












End logging.

(** ** Module constants *)

Definition STACKLEVEL : bool := true.

(** [STACKLEVEL_OFFSET = 2 if py311 else 1]; [py311] comes from the [util]
    package and is taken as a parameter. *)
Definition STACKLEVEL_OFFSET (py311 : bool) : Z := if py311 then 2 else 1.

(** [_EchoFlagType = Union[None, bool, Literal["debug"]]]. *)
Inductive EchoFlag := EchoNone | EchoFalse | EchoTrue | EchoDebug.

#[global] Instance EchoFlag_eq_dec : EqDecision EchoFlag.
Proof. solve_decision. Defined.

(** ** _add_default_handler *)

Definition default_format : string :=
  "%(asctime)s %(levelname)s %(name)s %(message)s".

Definition _add_default_handler (logger : string) (st : logging.State)
    : logging.State :=
  let handler := logging.StreamHandler logging.stdout in
  let handler := logging.setFormatter handler default_format in
  logging.addHandler logger handler st.

(** ** InstanceLogger *)

(** [InstanceLogger._echo_map]. *)
Definition _echo_map (echo : EchoFlag) : Z :=
  match echo with
  | EchoNone => logging.NOTSET
  | EchoFalse => logging.NOTSET
  | EchoTrue => logging.INFO
  | EchoDebug => logging.DEBUG
  end.

(** [__slots__ = ("echo", "logger")]; the logger slot holds the backend
    handle. *)
Record InstanceLogger := mkInstanceLogger {
  echo : EchoFlag;
  logger : string
}.

(** [InstanceLogger.__init__(echo, name)]. *)
Definition InstanceLogger_init (echo0 : EchoFlag) (name : string)
    (st : logging.State) : InstanceLogger * logging.State :=
  let self := {| echo := echo0; logger := name |} in
  let st := logging.getLogger name st in
  if (_echo_map echo0 <=? logging.INFO)
     && bool_decide (logging.handlers (logging.logger_at st (logger self)) = [])
  then (self, _add_default_handler (logger self) st)
  else (self, st).

Section WithPy311.

Variable py311 : bool.

(** The keyword arguments [log] hands to [_log]. *)
Definition with_stacklevel (kwargs : gmap string Z) : gmap string Z :=
  if STACKLEVEL
  then <["stacklevel" :=
          default 1 (kwargs !! "stacklevel") + STACKLEVEL_OFFSET py311]> kwargs
  else kwargs.

(** [InstanceLogger.log(level, msg, *args, **kwargs)]. *)
Definition InstanceLogger_log (self : InstanceLogger) (lvl : Z)
    (msg : string) (args : list string) (kwargs : gmap string Z)
    (st : logging.State) : logging.State :=
  if logging.disable st >=? lvl then st
  else
    let selected_level := _echo_map (echo self) in
    let selected_level :=
      if selected_level =? logging.NOTSET
      then logging.getEffectiveLevel st (logger self)
      else selected_level in
    if lvl >=? selected_level
    then logging._log (logger self) lvl msg args (with_stacklevel kwargs) st
    else st.

Definition InstanceLogger_debug self msg args kwargs st :=
  InstanceLogger_log self logging.DEBUG msg args kwargs st.
Definition InstanceLogger_info self msg args kwargs st :=
  InstanceLogger_log self logging.INFO msg args kwargs st.
Definition InstanceLogger_warning self msg args kwargs st :=
  InstanceLogger_log self logging.WARNING msg args kwargs st.
Definition InstanceLogger_warn := InstanceLogger_warning.
Definition InstanceLogger_error self msg args kwargs st :=
  InstanceLogger_log self logging.ERROR msg args kwargs st.
Definition InstanceLogger_exception self msg args
    (kwargs : gmap string Z) st :=
  InstanceLogger_log self logging.ERROR msg args
    (<["exc_info" := 1]> kwargs) st.
Definition InstanceLogger_critical self msg args kwargs st :=
  InstanceLogger_log self logging.CRITICAL msg args kwargs st.

End WithPy311.

(** [InstanceLogger.getEffectiveLevel()]. *)
Definition InstanceLogger_getEffectiveLevel (self : InstanceLogger)
    (st : logging.State) : Z :=
  let lv := _echo_map (echo self) in
  if lv =? logging.NOTSET
  then logging.getEffectiveLevel st (logger self)
  else lv.

(** [InstanceLogger.isEnabledFor(level)]. *)
Definition InstanceLogger_isEnabledFor (self : InstanceLogger) (lvl : Z)
    (st : logging.State) : bool :=
  if logging.disable st >=? lvl then false
  else lvl >=? InstanceLogger_getEffectiveLevel self st.

(** ** Classes and instances implementing Identified *)

(** What a class's [_should_log_debug] / [_should_log_info] attribute is
    bound to: the method inherited from [Identified], or the lambda that
    [class_logger] assigns, which closes over the class-wide logger. *)
Inductive ShouldLog :=
  | IdentifiedMethod
  | ClassLoggerLambda (captured_logger : string).

(** A class object: the attributes log.py reads or assigns. *)
Record Class := mkClass {
  __module__ : string;
  __name__ : string;
  _sqla_logger_namespace : option string;
  _should_log_debug : ShouldLog;
  _should_log_info : ShouldLog;
  cls_logger : option string
}.

(** What the [logger] attribute of an instance is bound to. *)
Inductive LoggerBinding :=
  | DirectLogger (name : string)
  | Adapter (il : InstanceLogger).

(** An instance: its class, the [logging_name] label, and the two
    attributes [instance_logger] assigns ([None] while unassigned). *)
Record Identified := mkIdentified {
  __class__ : Class;
  logging_name : option string;
  _echo : option EchoFlag;
  logger_slot : option LoggerBinding
}.

(** Python's [x or y] on an optional string: [None] and the empty string
    are false. *)
Definition str_or (x : option string) (y : string) : string :=
  match x with
  | Some s => if String.eqb s EmptyString then y else s
  | None => y
  end.

Definition _qual_logger_name_for_cls (cls : Class) : string :=
  str_or (_sqla_logger_namespace cls)
         (__module__ cls +:+ "." +:+ __name__ cls).

(** [_logged_classes], keyed by the class's module and name. *)
Definition class_key (cls : Class) : string * string :=
  (__module__ cls, __name__ cls).

(** [class_logger(cls)]. *)
Definition class_logger (cls : Class) (_logged_classes : gset (string * string))
    (st : logging.State) : Class * gset (string * string) * logging.State :=
  let logger := _qual_logger_name_for_cls cls in
  let st := logging.getLogger logger st in
  let cls :=
    {| __module__ := __module__ cls; __name__ := __name__ cls;
       _sqla_logger_namespace := _sqla_logger_namespace cls;
       _should_log_debug := ClassLoggerLambda logger;
       _should_log_info := ClassLoggerLambda logger;
       cls_logger := Some logger |} in
  (cls, {[ class_key cls ]} ∪ _logged_classes, st).

(** Reading [self.logger]: the instance attribute, else the class's. *)
Definition get_logger (self : Identified) : option LoggerBinding :=
  match logger_slot self with
  | Some b => Some b
  | None => DirectLogger <$> cls_logger (__class__ self)
  end.

(** [binding.isEnabledFor(level)] on either kind of logger. *)
Definition binding_isEnabledFor (b : LoggerBinding) (lvl : Z)
    (st : logging.State) : bool :=
  match b with
  | DirectLogger name => logging.isEnabledFor st name lvl
  | Adapter il => InstanceLogger_isEnabledFor il lvl st
  end.

(** Calling a [_should_log_*] attribute on [self] for severity [lvl];
    [None] when [self.logger] does not exist. *)
Definition call_should_log (m : ShouldLog) (lvl : Z) (self : Identified)
    (st : logging.State) : option bool :=
  match m with
  | IdentifiedMethod =>
      (fun b => binding_isEnabledFor b lvl st) <$> get_logger self
  | ClassLoggerLambda logger => Some (logging.isEnabledFor st logger lvl)
  end.

Definition should_log_debug (self : Identified) (st : logging.State)
    : option bool :=
  call_should_log (_should_log_debug (__class__ self)) logging.DEBUG self st.

Definition should_log_info (self : Identified) (st : logging.State)
    : option bool :=
  call_should_log (_should_log_info (__class__ self)) logging.INFO self st.

(** ** instance_logger *)

(** The logger name [instance_logger] computes. *)
Definition instance_name (instance : Identified) : string :=
  match logging_name instance with
  | Some l =>
      if String.eqb l EmptyString
      then _qual_logger_name_for_cls (__class__ instance)
      else _qual_logger_name_for_cls (__class__ instance) +:+ "." +:+ l
  | None => _qual_logger_name_for_cls (__class__ instance)
  end.

(** [echoflag in (False, None)]. *)
Definition in_False_None (echoflag : EchoFlag) : bool :=
  bool_decide (echoflag = EchoFalse) || bool_decide (echoflag = EchoNone).

Definition instance_logger (instance : Identified) (echoflag : EchoFlag)
    (st : logging.State) : Identified * logging.State :=
  let name := instance_name instance in
  let '(logger, st) :=
    if in_False_None echoflag
    then (DirectLogger name, logging.getLogger name st)
    else let '(il, st) := InstanceLogger_init echoflag name st in
         (Adapter il, st) in
  ({| __class__ := __class__ instance;
      logging_name := logging_name instance;
      _echo := Some echoflag;
      logger_slot := Some logger |}, st).

(** ** echo_property *)

Inductive echo_property : Set := the_echo_property.

(** [echo_property.__get__(instance, owner)]: the descriptor itself when
    read on the class, the stored flag when read on an instance ([None]
    if [_echo] was never assigned). *)
Definition echo_property_get (self : echo_property)
    (instance : option Identified) : option (echo_property + EchoFlag) :=
  match instance with
  | None => Some (inl self)
  | Some i => inr <$> _echo i
  end.

(** [echo_property.__set__(instance, value)]. *)
Definition echo_property_set (self : echo_property) (instance : Identified)
    (value : EchoFlag) (st : logging.State) : Identified * logging.State :=
  instance_logger instance value st.

(** ** The level map in the words of the specification *)

(** Unset and False give no override, True gives Info, Debug gives Debug. *)
Definition spec_effective_override_level (e : EchoFlag) : option Z :=
  match e with
  | EchoNone | EchoFalse => None
  | EchoTrue => Some logging.INFO
  | EchoDebug => Some logging.DEBUG
  end.

(** The level [log] compares against, in the words of the specification. *)
Definition spec_selected (self : InstanceLogger) (st : logging.State) : Z :=
  match spec_effective_override_level (echo self) with
  | Some l => l
  | None => logging.getEffectiveLevel st (logger self)
  end.

(** ** Concrete backends and instances used in examples *)

Definition engine_name : string := "sqlalchemy.engine.Engine".

(** The backend after importing log.py: only the "sqlalchemy" logger is
    registered, at WARN. *)
Definition st_initial : logging.State :=
  {| logging.disable := 0;
     logging.root := {| logging.level := logging.WARNING;
                        logging.handlers := []; logging.disabled := false |};
     logging.loggerDict :=
       {[ "sqlalchemy" := {| logging.level := logging.WARN;
                             logging.handlers := [];
                             logging.disabled := false |} ]};
     logging.log_calls := [] |}.

(** The same after [logging.disable(logging.INFO)]. *)
Definition st_suppressed : logging.State :=
  {| logging.disable := logging.INFO;
     logging.root := logging.root st_initial;
     logging.loggerDict := logging.loggerDict st_initial;
     logging.log_calls := [] |}.

Definition Engine : Class :=
  {| __module__ := "sqlalchemy.engine.base"; __name__ := "Engine";
     _sqla_logger_namespace := Some engine_name;
     _should_log_debug := IdentifiedMethod;
     _should_log_info := IdentifiedMethod;
     cls_logger := None |}.

Definition new_instance (cls : Class) (label : option string) : Identified :=
  {| __class__ := cls; logging_name := label; _echo := None;
     logger_slot := None |}.

(** ** Auxiliary notions for the statements *)

(** The handler [_add_default_handler] builds. *)
Definition default_handler : logging.Handler :=
  logging.setFormatter (logging.StreamHandler logging.stdout) default_format.

(** Building adapters one after the other on one namespace. *)
Fixpoint build_adapters (es : list EchoFlag) (name : string)
    (st : logging.State) : logging.State :=
  match es with
  | [] => st
  | e :: es' => build_adapters es' name (snd (InstanceLogger_init e name st))
  end.

(** Two backends that agree on everything [isEnabledFor] reads. *)
Definition same_levels (st st' : logging.State) : Prop :=
  logging.disable st = logging.disable st'
  /\ logging.level (logging.root st) = logging.level (logging.root st')
  /\ forall n,
       logging.level (logging.logger_at st n)
       = logging.level (logging.logger_at st' n)
       /\ logging.disabled (logging.logger_at st n)
          = logging.disabled (logging.logger_at st' n).

(** ** Module initialisation and sequences of echo writes *)

(** The name behind the module-level [rootlogger]. *)
Definition rootlogger : string := "sqlalchemy".

(** What importing log.py does to the backend: [rootlogger] is looked up
    and, if its level is NOTSET, set to WARN. *)
Definition module_import (st : logging.State) : logging.State :=
  let st := logging.getLogger rootlogger st in
  if logging.level (logging.logger_at st rootlogger) =? logging.NOTSET
  then logging.setLevel rootlogger logging.WARN st
  else st.

(** Assigning [instance.echo = v] for each [v] of a list, in order. *)
Fixpoint write_all (p : echo_property) (vs : list EchoFlag)
    (instance : Identified) (st : logging.State)
    : Identified * logging.State :=
  match vs with
  | [] => (instance, st)
  | v :: vs' =>
      let '(instance', st') := echo_property_set p instance v st in
      write_all p vs' instance' st'
  end.

(** Whether a list of echo values holds True or "debug". *)
Definition any_override (vs : list EchoFlag) : bool :=
  existsb (fun v => negb (in_False_None v)) vs.

(** The handler list of a logger after an echo write, from the list
    before it. *)
Definition handlers_after (v : EchoFlag) (hs : list logging.Handler)
    : list logging.Handler :=
  if in_False_None v then hs
  else if bool_decide (hs = []) then [default_handler] else hs.

(** ** Call stacks through the adapter *)






(** ** Names with two dots in a row *)



(** ** Level resolution *)

Lemma echo_map_override (e : EchoFlag) (fallback : Z) :
  (if _echo_map e =? logging.NOTSET then fallback else _echo_map e)
  = match spec_effective_override_level e with
    | Some l => l
    | None => fallback
    end.
Proof. destruct e; reflexivity. Qed.

Lemma getEffectiveLevel_selected (self : InstanceLogger) (st : logging.State) :
  InstanceLogger_getEffectiveLevel self st = spec_selected self st.
Proof. apply echo_map_override. Qed.

Lemma log_unfold py311 self lvl msg args kwargs st :
  InstanceLogger_log py311 self lvl msg args kwargs st
  = if logging.disable st >=? lvl then st
    else if lvl >=? spec_selected self st
         then logging._log (logger self) lvl msg args
                (with_stacklevel py311 kwargs) st
         else st.
Proof.
  unfold InstanceLogger_log, spec_selected.
  now rewrite echo_map_override.
Qed.

Lemma log_calls__log name lvl msg args kwargs st :
  logging.log_calls (logging._log name lvl msg args kwargs st)
  = logging.log_calls st ++
      [ logging.mkLogCall name lvl msg args kwargs ].
Proof. reflexivity. Qed.

Lemma app_singleton_neq {A} (l : list A) (x : A) : l <> l ++ [x].
Proof.
  intros H. apply (f_equal (@length A)) in H.
  rewrite length_app in H. simpl in H. lia.
Qed.

(** C1. When the manager does not suppress [lvl], [log] hands the call to
    the emit primitive [_log] exactly when [lvl] is at least the selected
    level (the echo-mapped level, or the backend logger's effective level
    when the echo gives no override), and otherwise leaves the backend
    untouched.  The backend's own [isEnabledFor] is not consulted. *)
Theorem log_forwards_iff_selected
    (py311 : bool) (self : InstanceLogger) (lvl : Z) (msg : string)
    (args : list string) (kwargs : gmap string Z) (st : logging.State) :
  logging.disable st < lvl ->
  (spec_selected self st <= lvl ->
     InstanceLogger_log py311 self lvl msg args kwargs st
     = logging._log (logger self) lvl msg args
         (with_stacklevel py311 kwargs) st)
  /\ (lvl < spec_selected self st ->
     InstanceLogger_log py311 self lvl msg args kwargs st = st)
  /\ (spec_selected self st <= lvl <->
      logging.log_calls
        (InstanceLogger_log py311 self lvl msg args kwargs st)
      = logging.log_calls st ++
          [ logging.mkLogCall (logger self) lvl msg args
              (with_stacklevel py311 kwargs) ]).
Proof.
  intros Hdis. rewrite log_unfold.
  destruct (logging.disable st >=? lvl) eqn:Hd; [lia|].
  destruct (lvl >=? spec_selected self st) eqn:Hs.
  - repeat split; try reflexivity; lia.
  - repeat split; try reflexivity; try lia.
    intros H. exfalso. exact (app_singleton_neq _ _ H).
Qed.

(** The backend logger itself may be disabled for the level that [log]
    emits: echo "debug" on a namespace whose ambient level is WARN. *)
Example log_bypasses_backend_check :
  logging.isEnabledFor st_initial engine_name logging.DEBUG = false
  /\ length (logging.log_calls
       (InstanceLogger_log true (mkInstanceLogger EchoDebug engine_name)
          logging.DEBUG "select 1" [] ∅ st_initial)) = 1%nat.
Proof. split; vm_compute; reflexivity. Qed.

Lemma log_forwards_iff_selected_witness :
  logging.disable st_initial < logging.INFO
  /\ logging.log_calls
       (InstanceLogger_log true (mkInstanceLogger EchoTrue engine_name)
          logging.INFO "BEGIN" [] ∅ st_initial)
     = [ logging.mkLogCall engine_name logging.INFO "BEGIN" []
           (with_stacklevel true ∅) ].
Proof.
  assert (Hd : logging.disable st_initial < logging.INFO)
    by (vm_compute; reflexivity).
  split; [exact Hd|].
  apply (log_forwards_iff_selected true
           (mkInstanceLogger EchoTrue engine_name) logging.INFO "BEGIN" [] ∅
           st_initial Hd).
  vm_compute. discriminate.
Defined.

(** C2. A manager-wide suppression threshold at or above [lvl] makes [log]
    return at once, whatever the echo flag, and [isEnabledFor] answer
    false: the suppression test comes before the override. *)
Theorem log_suppressed_is_noop
    (py311 : bool) (self : InstanceLogger) (lvl : Z) (msg : string)
    (args : list string) (kwargs : gmap string Z) (st : logging.State) :
  lvl <= logging.disable st ->
  InstanceLogger_log py311 self lvl msg args kwargs st = st
  /\ InstanceLogger_isEnabledFor self lvl st = false.
Proof.
  intros Hdis. unfold InstanceLogger_log, InstanceLogger_isEnabledFor.
  destruct (logging.disable st >=? lvl) eqn:Hd; [split; reflexivity | lia].
Qed.

Lemma log_suppressed_is_noop_witness :
  logging.DEBUG <= logging.disable st_suppressed
  /\ InstanceLogger_log true (mkInstanceLogger EchoDebug engine_name)
       logging.DEBUG "select 1" [] ∅ st_suppressed = st_suppressed.
Proof.
  assert (Hd : logging.DEBUG <= logging.disable st_suppressed)
    by (vm_compute; discriminate).
  split; [exact Hd|].
  apply (log_suppressed_is_noop true (mkInstanceLogger EchoDebug engine_name)
           logging.DEBUG "select 1" [] ∅ st_suppressed Hd).
Defined.

(** C3. The echo map sends None and False to NOTSET (no override), True to
    INFO and "debug" to DEBUG; [getEffectiveLevel] is DEBUG under echo
    "debug" and the backend logger's own effective level under None or
    False. *)
Theorem echo_map_and_effective_level :
  _echo_map EchoNone = logging.NOTSET
  /\ _echo_map EchoFalse = logging.NOTSET
  /\ _echo_map EchoTrue = logging.INFO
  /\ _echo_map EchoDebug = logging.DEBUG
  /\ (forall e, spec_effective_override_level e
               = if _echo_map e =? logging.NOTSET then None
                 else Some (_echo_map e))
  /\ (forall name st,
        InstanceLogger_getEffectiveLevel (mkInstanceLogger EchoDebug name) st
        = logging.DEBUG)
  /\ (forall name st,
        InstanceLogger_getEffectiveLevel (mkInstanceLogger EchoNone name) st
        = logging.getEffectiveLevel st name)
  /\ (forall name st,
        InstanceLogger_getEffectiveLevel (mkInstanceLogger EchoFalse name) st
        = logging.getEffectiveLevel st name).
Proof.
  repeat split; try reflexivity.
  intros e. destruct e; reflexivity.
Qed.

(** C4, as the spec states it, fails under manager-wide suppression: with
    [logging.disable(INFO)] an adapter with echo True is not enabled for
    INFO. *)
Lemma echo_true_enabled_info_counterexample :
  echo (mkInstanceLogger EchoTrue engine_name) = EchoTrue
  /\ InstanceLogger_isEnabledFor (mkInstanceLogger EchoTrue engine_name)
       logging.INFO st_suppressed = false.
Proof. split; vm_compute; reflexivity. Qed.

(** C4, amended. With echo True and the manager's suppression threshold
    below INFO, [isEnabledFor(INFO)] is true whatever the levels set on the
    backend loggers. *)
Theorem echo_true_enabled_info
    (self : InstanceLogger) (st : logging.State) :
  echo self = EchoTrue ->
  logging.disable st < logging.INFO ->
  InstanceLogger_isEnabledFor self logging.INFO st = true.
Proof.
  intros He Hdis.
  unfold InstanceLogger_isEnabledFor, InstanceLogger_getEffectiveLevel.
  rewrite He.
  destruct (logging.disable st >=? logging.INFO) eqn:Hd; [lia|].
  reflexivity.
Qed.

Lemma echo_true_enabled_info_witness :
  logging.getEffectiveLevel st_initial engine_name = logging.WARNING
  /\ InstanceLogger_isEnabledFor (mkInstanceLogger EchoTrue engine_name)
       logging.INFO st_initial = true.
Proof.
  split; [vm_compute; reflexivity|].
  apply (echo_true_enabled_info (mkInstanceLogger EchoTrue engine_name)
           st_initial); [reflexivity | vm_compute; reflexivity].
Defined.

(** ** The registry under getLogger and addHandler *)

Lemma logger_at_getLogger (name n : string) (st : logging.State) :
  logging.logger_at (logging.getLogger name st) n = logging.logger_at st n.
Proof.
  unfold logging.getLogger, logging.logger_at.
  destruct (logging.loggerDict st !! name) eqn:Hl; [reflexivity|].
  simpl. destruct (decide (name = n)) as [->|Hne].
  - now rewrite lookup_insert_eq, Hl.
  - now rewrite lookup_insert_ne.
Qed.

Lemma getLogger_registered (name : string) (st : logging.State) :
  is_Some (logging.loggerDict st !! name) -> logging.getLogger name st = st.
Proof. intros [l Hl]. unfold logging.getLogger. now rewrite Hl. Qed.

Lemma addHandler_registered (name : string) (h : logging.Handler)
    (st : logging.State) :
  is_Some (logging.loggerDict (logging.addHandler name h st) !! name).
Proof. unfold logging.addHandler. simpl. rewrite lookup_insert_eq. eauto. Qed.

Lemma logger_at_addHandler_eq (name : string) (h : logging.Handler)
    (st : logging.State) :
  logging.handlers (logging.logger_at (logging.addHandler name h st) name)
  = logging.handlers (logging.logger_at st name) ++ [h].
Proof.
  unfold logging.addHandler, logging.logger_at at 1. simpl.
  now rewrite lookup_insert_eq.
Qed.

Lemma logger_at_addHandler_ne (name n : string) (h : logging.Handler)
    (st : logging.State) :
  name <> n ->
  logging.logger_at (logging.addHandler name h st) n = logging.logger_at st n.
Proof.
  intros Hne. unfold logging.addHandler, logging.logger_at at 1. simpl.
  now rewrite lookup_insert_ne.
Qed.

Lemma level_addHandler (name n : string) (h : logging.Handler)
    (st : logging.State) :
  logging.level (logging.logger_at (logging.addHandler name h st) n)
  = logging.level (logging.logger_at st n).
Proof.
  destruct (decide (name = n)) as [->|Hne].
  - unfold logging.addHandler, logging.logger_at at 1. simpl.
    now rewrite lookup_insert_eq.
  - now rewrite logger_at_addHandler_ne.
Qed.

Lemma disabled_addHandler (name n : string) (h : logging.Handler)
    (st : logging.State) :
  logging.disabled (logging.logger_at (logging.addHandler name h st) n)
  = logging.disabled (logging.logger_at st n).
Proof.
  destruct (decide (name = n)) as [->|Hne].
  - unfold logging.addHandler, logging.logger_at at 1. simpl.
    now rewrite lookup_insert_eq.
  - now rewrite logger_at_addHandler_ne.
Qed.

(** ** The default handler *)

Lemma echo_map_le_INFO (e : EchoFlag) : (_echo_map e <=? logging.INFO) = true.
Proof. destruct e; reflexivity. Qed.

Lemma init_without_handlers (e : EchoFlag) (name : string)
    (st : logging.State) :
  logging.handlers (logging.logger_at st name) = [] ->
  snd (InstanceLogger_init e name st)
  = _add_default_handler name (logging.getLogger name st).
Proof.
  intros Hh. unfold InstanceLogger_init. cbn [logger].
  rewrite echo_map_le_INFO, logger_at_getLogger, Hh.
  rewrite bool_decide_eq_true_2 by reflexivity. reflexivity.
Qed.

Lemma init_with_handlers (e : EchoFlag) (name : string) (st : logging.State) :
  is_Some (logging.loggerDict st !! name) ->
  logging.handlers (logging.logger_at st name) <> [] ->
  snd (InstanceLogger_init e name st) = st.
Proof.
  intros Hreg Hh. unfold InstanceLogger_init. cbn [logger].
  rewrite (getLogger_registered name st Hreg).
  rewrite bool_decide_eq_false_2 by exact Hh.
  now rewrite andb_false_r.
Qed.

Lemma build_adapters_with_handlers (es : list EchoFlag) (name : string)
    (st : logging.State) :
  is_Some (logging.loggerDict st !! name) ->
  logging.handlers (logging.logger_at st name) <> [] ->
  build_adapters es name st = st.
Proof.
  intros Hreg Hh. induction es as [|e es IH]; [reflexivity|].
  simpl. now rewrite init_with_handlers.
Qed.

(** C5. On a namespace whose logger has no handler, building an adapter
    with echo True attaches exactly one default handler; a second adapter
    with echo True or "debug" on that namespace changes nothing, and
    neither does any further sequence of adapters: the handler list is
    tested before a handler is added. *)
Theorem default_handler_attached_once
    (name : string) (st : logging.State) (e2 : EchoFlag) :
  logging.handlers (logging.logger_at st name) = [] ->
  e2 = EchoTrue \/ e2 = EchoDebug ->
  let st1 := snd (InstanceLogger_init EchoTrue name st) in
  let st2 := snd (InstanceLogger_init e2 name st1) in
  logging.handlers (logging.logger_at st1 name) = [default_handler]
  /\ st2 = st1
  /\ logging.handlers (logging.logger_at st2 name) = [default_handler]
  /\ (forall es, build_adapters es name st1 = st1).
Proof.
  intros Hh He2 st1 st2.
  assert (H1 : logging.handlers (logging.logger_at st1 name)
               = [default_handler]).
  { subst st1. rewrite init_without_handlers by exact Hh.
    unfold _add_default_handler. rewrite logger_at_addHandler_eq.
    now rewrite logger_at_getLogger, Hh. }
  assert (Hreg : is_Some (logging.loggerDict st1 !! name)).
  { subst st1. rewrite init_without_handlers by exact Hh.
    apply addHandler_registered. }
  assert (Hne : logging.handlers (logging.logger_at st1 name) <> [])
    by (rewrite H1; discriminate).
  assert (H2 : st2 = st1) by (subst st2; now apply init_with_handlers).
  repeat split.
  - exact H1.
  - exact H2.
  - now rewrite H2.
  - intros es. now apply build_adapters_with_handlers.
Qed.

Lemma default_handler_attached_once_witness :
  logging.handlers (logging.logger_at st_initial engine_name) = []
  /\ logging.handlers
       (logging.logger_at
          (snd (InstanceLogger_init EchoDebug engine_name
             (snd (InstanceLogger_init EchoTrue engine_name st_initial))))
          engine_name)
     = [default_handler].
Proof.
  assert (Hh : logging.handlers (logging.logger_at st_initial engine_name) = [])
    by (vm_compute; reflexivity).
  split; [exact Hh|].
  apply (default_handler_attached_once engine_name st_initial EchoDebug Hh
           (or_intror eq_refl)).
Defined.

(** ** Logger bindings and the echo attribute *)

Lemma instance_logger_slot (instance : Identified) (v : EchoFlag)
    (st : logging.State) :
  logger_slot (fst (instance_logger instance v st))
  = Some (if in_False_None v
          then DirectLogger (instance_name instance)
          else Adapter (mkInstanceLogger v (instance_name instance))).
Proof.
  unfold instance_logger, InstanceLogger_init.
  destruct (in_False_None v); [reflexivity|].
  destruct (_ && _); reflexivity.
Qed.

Lemma instance_logger_fst (instance : Identified) (v : EchoFlag)
    (st : logging.State) :
  fst (instance_logger instance v st)
  = {| __class__ := __class__ instance;
       logging_name := logging_name instance;
       _echo := Some v;
       logger_slot :=
         Some (if in_False_None v
               then DirectLogger (instance_name instance)
               else Adapter (mkInstanceLogger v (instance_name instance))) |}.
Proof.
  unfold instance_logger, InstanceLogger_init.
  destruct (in_False_None v); [reflexivity|].
  destruct (_ && _); reflexivity.
Qed.

(** C6. After a write through [echo_property] (which is a call of
    [instance_logger]) the instance's logger attribute holds one binding:
    a backend logger when the written value is None or False and only
    then, an [InstanceLogger] carrying the written value otherwise and
    only then; the new instance state does not depend on the binding or
    the echo value that were there before. *)
Theorem one_binding_after_write
    (p : echo_property) (instance : Identified) (v : EchoFlag)
    (st : logging.State) :
  let instance' := fst (echo_property_set p instance v st) in
  let name := instance_name instance in
  echo_property_set p instance v st = instance_logger instance v st
  /\ (exists b, logger_slot instance' = Some b)
  /\ (logger_slot instance' = Some (DirectLogger name)
      <-> v = EchoNone \/ v = EchoFalse)
  /\ (logger_slot instance' = Some (Adapter (mkInstanceLogger v name))
      <-> v = EchoTrue \/ v = EchoDebug)
  /\ ((exists n, logger_slot instance' = Some (DirectLogger n))
      <-> ~ (exists il, logger_slot instance' = Some (Adapter il)))
  /\ (forall old_echo old_slot st2,
        fst (echo_property_set p
               {| __class__ := __class__ instance;
                  logging_name := logging_name instance;
                  _echo := old_echo; logger_slot := old_slot |} v st2)
        = instance').
Proof.
  intros instance' name. subst instance' name.
  unfold echo_property_set.
  split; [reflexivity|].
  rewrite instance_logger_slot.
  split; [eauto|].
  split; [|split; [|split]].
  - destruct v; cbn; split; intros H;
      try discriminate; try (destruct H; discriminate); auto.
  - destruct v; cbn; split; intros H;
      try discriminate; try (destruct H; discriminate); auto.
  - destruct (in_False_None v); split.
    + intros _ [il Hil]. discriminate.
    + intros _. eauto.
    + intros [n Hn]. discriminate.
    + intros H. exfalso. apply H. eauto.
  - intros old_echo old_slot st2. now rewrite !instance_logger_fst.
Qed.

Lemma one_binding_after_write_witness :
  logger_slot
    (fst (echo_property_set the_echo_property (new_instance Engine None)
            EchoDebug st_initial))
  = Some (Adapter (mkInstanceLogger EchoDebug engine_name))
  /\ logger_slot
       (fst (echo_property_set the_echo_property (new_instance Engine None)
               EchoFalse st_initial))
     = Some (DirectLogger engine_name).
Proof.
  split.
  - destruct (one_binding_after_write the_echo_property
                (new_instance Engine None) EchoDebug st_initial)
      as (_ & _ & _ & Hadapter & _).
    apply Hadapter. right. reflexivity.
  - destruct (one_binding_after_write the_echo_property
                (new_instance Engine None) EchoFalse st_initial)
      as (_ & _ & Hdirect & _).
    apply Hdirect. right. reflexivity.
Defined.

(** C7. Reading [echo] after writing [v] gives back [v] itself. *)
Theorem echo_write_then_read
    (p : echo_property) (instance : Identified) (v : EchoFlag)
    (st : logging.State) :
  echo_property_get p (Some (fst (echo_property_set p instance v st)))
  = Some (inr v).
Proof.
  unfold echo_property_set. now rewrite instance_logger_fst.
Qed.

(** Reading the attribute on the class gives the descriptor. *)
Lemma echo_read_on_class (p : echo_property) :
  echo_property_get p None = Some (inl p).
Proof. reflexivity. Qed.

(** ** Names *)

Lemma append_inj_l (a b c : string) : a +:+ b = a +:+ c -> b = c.
Proof.
  induction a as [|ch a IH]; intros H; [exact H|].
  change (String ch (a +:+ b) = String ch (a +:+ c)) in H.
  injection H as H. now apply IH.
Qed.

Lemma append_empty_r (a : string) : a +:+ EmptyString = a.
Proof.
  induction a as [|ch a IH]; [reflexivity|].
  change (String ch (a +:+ EmptyString) = String ch a). now rewrite IH.
Qed.

Lemma append_dot_neq (a l : string) : a +:+ "." +:+ l <> a.
Proof.
  intros H.
  assert (H' : a +:+ ("." +:+ l) = a +:+ EmptyString)
    by (rewrite append_empty_r; exact H).
  apply append_inj_l in H'. discriminate.
Qed.

Lemma eqb_empty_false (s : string) :
  s <> EmptyString -> String.eqb s EmptyString = false.
Proof. intros H. now apply String.eqb_neq. Qed.

(** C8, as the spec states it, fails for a namespace override that is
    declared but empty: the class's logger name is then module + "." +
    class name, not the declared override. *)
Lemma declared_namespace_counterexample :
  let cls := {| __module__ := "sqlalchemy.pool"; __name__ := "Pool";
                _sqla_logger_namespace := Some EmptyString;
                _should_log_debug := IdentifiedMethod;
                _should_log_info := IdentifiedMethod;
                cls_logger := None |} in
  _sqla_logger_namespace cls = Some EmptyString
  /\ _qual_logger_name_for_cls cls = "sqlalchemy.pool.Pool"
  /\ _qual_logger_name_for_cls cls <> EmptyString
  /\ instance_name (new_instance cls (Some "main"))
     = "sqlalchemy.pool.Pool.main"
  /\ instance_name (new_instance cls (Some "main")) <> ".main".
Proof. cbn. repeat split; discriminate. Qed.

(** C8, amended. The class's logger name is the declared namespace
    override when one is declared and non-empty, else module + "." + class
    name; an instance with a non-empty label resolves to that name + "." +
    label, an instance without one to that name alone.  So instances of
    one class with different labels get different names, and unlabelled
    instances of one class get the same name. *)
Theorem instance_name_resolution (cls : Class) :
  (forall ns, _sqla_logger_namespace cls = Some ns -> ns <> EmptyString ->
              _qual_logger_name_for_cls cls = ns)
  /\ (_sqla_logger_namespace cls = None
      \/ _sqla_logger_namespace cls = Some EmptyString ->
      _qual_logger_name_for_cls cls = __module__ cls +:+ "." +:+ __name__ cls)
  /\ (forall i l, __class__ i = cls -> logging_name i = Some l ->
        l <> EmptyString ->
        instance_name i = _qual_logger_name_for_cls cls +:+ "." +:+ l)
  /\ (forall i, __class__ i = cls ->
        logging_name i = None \/ logging_name i = Some EmptyString ->
        instance_name i = _qual_logger_name_for_cls cls)
  /\ (forall i1 i2 l1 l2,
        __class__ i1 = cls -> __class__ i2 = cls ->
        logging_name i1 = Some l1 -> logging_name i2 = Some l2 ->
        l1 <> l2 ->
        instance_name i1 <> instance_name i2)
  /\ (forall i1 i2,
        __class__ i1 = cls -> __class__ i2 = cls ->
        logging_name i1 = None -> logging_name i2 = None ->
        instance_name i1 = instance_name i2)
  /\ (forall i1 i2 l,
        __class__ i1 = cls -> __class__ i2 = cls ->
        logging_name i1 = None -> logging_name i2 = Some l ->
        l <> EmptyString ->
        instance_name i1 <> instance_name i2).
Proof.
  assert (Hlab : forall i l, __class__ i = cls -> logging_name i = Some l ->
            l <> EmptyString ->
            instance_name i = _qual_logger_name_for_cls cls +:+ "." +:+ l).
  { intros i l Hc Hl Hne. unfold instance_name.
    now rewrite Hl, Hc, eqb_empty_false. }
  assert (Hnone : forall i, __class__ i = cls ->
            logging_name i = None \/ logging_name i = Some EmptyString ->
            instance_name i = _qual_logger_name_for_cls cls).
  { intros i Hc [Hl|Hl]; unfold instance_name; now rewrite Hl, Hc. }
  repeat split.
  - intros ns Hns Hne. unfold _qual_logger_name_for_cls, str_or.
    now rewrite Hns, eqb_empty_false.
  - intros [H|H]; unfold _qual_logger_name_for_cls, str_or; now rewrite H.
  - exact Hlab.
  - exact Hnone.
  - intros i1 i2 l1 l2 Hc1 Hc2 Hl1 Hl2 Hne Heq.
    destruct (decide (l1 = EmptyString)) as [E1|N1];
      destruct (decide (l2 = EmptyString)) as [E2|N2].
    + congruence.
    + subst l1. rewrite (Hnone i1), (Hlab i2 l2) in Heq by auto.
      symmetry in Heq. exact (append_dot_neq _ _ Heq).
    + subst l2. rewrite (Hlab i1 l1), (Hnone i2) in Heq by auto.
      exact (append_dot_neq _ _ Heq).
    + rewrite (Hlab i1 l1), (Hlab i2 l2) in Heq by assumption.
      do 2 apply append_inj_l in Heq. contradiction.
  - intros i1 i2 Hc1 Hc2 Hl1 Hl2.
    rewrite (Hnone i1), (Hnone i2); auto.
  - intros i1 i2 l Hc1 Hc2 Hl1 Hl2 Hne Heq.
    rewrite (Hnone i1), (Hlab i2 l) in Heq by auto.
    symmetry in Heq. exact (append_dot_neq _ _ Heq).
Qed.

Lemma instance_name_resolution_witness :
  instance_name (new_instance Engine (Some "primary"))
  = "sqlalchemy.engine.Engine.primary"
  /\ instance_name (new_instance Engine (Some "primary"))
     <> instance_name (new_instance Engine (Some "replica")).
Proof.
  destruct (instance_name_resolution Engine)
    as (Hns & _ & Hlab & _ & Hdiff & _).
  split.
  - rewrite (Hlab (new_instance Engine (Some "primary")) "primary"
               eq_refl eq_refl ltac:(discriminate)).
    rewrite (Hns engine_name eq_refl ltac:(discriminate)). reflexivity.
  - apply (Hdiff (new_instance Engine (Some "primary"))
                 (new_instance Engine (Some "replica"))
                 "primary" "replica" eq_refl eq_refl eq_refl eq_refl).
    discriminate.
Defined.

(** ** The stack-depth hint *)

Lemma with_stacklevel_lookup (py311 : bool) (kwargs : gmap string Z) :
  with_stacklevel py311 kwargs !! "stacklevel"
  = Some (default 1 (kwargs !! "stacklevel") + STACKLEVEL_OFFSET py311).
Proof. unfold with_stacklevel. simpl. apply lookup_insert_eq. Qed.

Lemma with_stacklevel_other (py311 : bool) (kwargs : gmap string Z)
    (k : string) :
  k <> "stacklevel" -> with_stacklevel py311 kwargs !! k = kwargs !! k.
Proof.
  intros Hk. unfold with_stacklevel. simpl.
  apply lookup_insert_ne. congruence.
Qed.

(** *** What findCaller does with the hint *)









(** ** Levels are untouched by building loggers *)

Lemma same_levels_refl st : same_levels st st.
Proof. repeat split. Qed.

Lemma same_levels_trans st1 st2 st3 :
  same_levels st1 st2 -> same_levels st2 st3 -> same_levels st1 st3.
Proof.
  intros (Hd & Hr & Hl) (Hd' & Hr' & Hl').
  split; [congruence|]. split; [congruence|].
  intros n. destruct (Hl n), (Hl' n). split; congruence.
Qed.

Lemma same_levels_getLogger name st :
  same_levels st (logging.getLogger name st).
Proof.
  split; [|split].
  - unfold logging.getLogger. now destruct (_ !! _).
  - unfold logging.getLogger. now destruct (_ !! _).
  - intros n. now rewrite logger_at_getLogger.
Qed.

Lemma same_levels_addHandler name h st :
  same_levels st (logging.addHandler name h st).
Proof.
  split; [reflexivity|]. split; [reflexivity|].
  intros n. now rewrite level_addHandler, disabled_addHandler.
Qed.

Lemma same_levels_init e name st :
  same_levels st (snd (InstanceLogger_init e name st)).
Proof.
  unfold InstanceLogger_init. destruct (_ && _); cbn [snd].
  - eapply same_levels_trans; [apply same_levels_getLogger|].
    apply same_levels_addHandler.
  - apply same_levels_getLogger.
Qed.

Lemma same_levels_instance_logger instance v st :
  same_levels st (snd (instance_logger instance v st)).
Proof.
  unfold instance_logger. destruct (in_False_None v).
  - cbn. apply same_levels_getLogger.
  - pose proof (same_levels_init v (instance_name instance) st) as H.
    destruct (InstanceLogger_init v (instance_name instance) st). exact H.
Qed.

Lemma first_set_level_same st st' chain :
  same_levels st st' ->
  logging.first_set_level st chain = logging.first_set_level st' chain.
Proof.
  intros (_ & Hr & Hl). induction chain as [|n chain IH]; simpl; [exact Hr|].
  destruct (Hl n) as [-> _]. now rewrite IH.
Qed.

Lemma isEnabledFor_same st st' name lvl :
  same_levels st st' ->
  logging.isEnabledFor st name lvl = logging.isEnabledFor st' name lvl.
Proof.
  intros H. unfold logging.isEnabledFor, logging.getEffectiveLevel.
  rewrite (first_set_level_same st st' _ H).
  destruct H as (-> & _ & Hl). now destruct (Hl name) as [_ ->].
Qed.

(** ** The helpers injected by class_logger *)

(** C10. For a class passed through [class_logger], [_should_log_debug]
    and [_should_log_info] of any instance answer with the class-wide
    logger's [isEnabledFor], whatever the instance's echo flag and logger
    binding; writing an echo flag does not change the answer.  With echo
    "debug" written and the class-wide logger not enabled for DEBUG the
    injected helper says false where the method of [Identified] says
    true. *)
Theorem class_logger_helpers_ignore_echo
    (cls : Class) (logged : gset (string * string)) (st0 : logging.State)
    (self : Identified) (v : EchoFlag) (st : logging.State) :
  __class__ self = fst (fst (class_logger cls logged st0)) ->
  let cname := _qual_logger_name_for_cls cls in
  let self' := fst (instance_logger self v st) in
  let st' := snd (instance_logger self v st) in
  should_log_debug self st
    = Some (logging.isEnabledFor st cname logging.DEBUG)
  /\ should_log_info self st
    = Some (logging.isEnabledFor st cname logging.INFO)
  /\ should_log_debug self' st' = should_log_debug self st
  /\ should_log_info self' st' = should_log_info self st
  /\ (v = EchoDebug -> logging.disable st < logging.DEBUG ->
      logging.isEnabledFor st cname logging.DEBUG = false ->
      should_log_debug self' st' = Some false
      /\ call_should_log IdentifiedMethod logging.DEBUG self' st'
         = Some true).
Proof.
  intros Hcls cname self' st'.
  assert (Hsame : same_levels st st')
    by apply same_levels_instance_logger.
  assert (Hcls' : __class__ self' = __class__ self)
    by (subst self'; now rewrite instance_logger_fst).
  assert (Hd : should_log_debug self st
               = Some (logging.isEnabledFor st cname logging.DEBUG))
    by (unfold should_log_debug; now rewrite Hcls).
  assert (Hi : should_log_info self st
               = Some (logging.isEnabledFor st cname logging.INFO))
    by (unfold should_log_info; now rewrite Hcls).
  assert (Hd' : should_log_debug self' st' = should_log_debug self st).
  { rewrite Hd. unfold should_log_debug. rewrite Hcls', Hcls. cbn.
    f_equal. symmetry. now apply isEnabledFor_same. }
  split; [exact Hd|]. split; [exact Hi|]. split; [exact Hd'|].
  split; [|intros Hv Hdis Hoff; split].
  - rewrite Hi. unfold should_log_info. rewrite Hcls', Hcls. cbn.
    f_equal. symmetry. now apply isEnabledFor_same.
  - now rewrite Hd', Hd, Hoff.
  - subst v self'. unfold call_should_log, get_logger.
    rewrite instance_logger_slot.
    change (Some (InstanceLogger_isEnabledFor
                    (mkInstanceLogger EchoDebug (instance_name self))
                    logging.DEBUG st') = Some true).
    unfold InstanceLogger_isEnabledFor.
    destruct Hsame as (<- & _).
    destruct (logging.disable st >=? logging.DEBUG) eqn:E; [lia|].
    reflexivity.
Qed.

Lemma class_logger_helpers_ignore_echo_witness :
  let cls := fst (fst (class_logger Engine ∅ st_initial)) in
  let st := snd (class_logger Engine ∅ st_initial) in
  let self := new_instance cls None in
  should_log_debug (fst (instance_logger self EchoDebug st))
    (snd (instance_logger self EchoDebug st)) = Some false
  /\ call_should_log IdentifiedMethod logging.DEBUG
       (fst (instance_logger self EchoDebug st))
       (snd (instance_logger self EchoDebug st)) = Some true.
Proof.
  intros cls st self.
  apply (class_logger_helpers_ignore_echo Engine ∅ st_initial self EchoDebug
           st eq_refl); [reflexivity | vm_compute; reflexivity
                        | vm_compute; reflexivity].
Defined.

(** ** log and isEnabledFor agree *)

Lemma isEnabledFor_unfold (self : InstanceLogger) (lvl : Z)
    (st : logging.State) :
  InstanceLogger_isEnabledFor self lvl st
  = if logging.disable st >=? lvl then false
    else lvl >=? spec_selected self st.
Proof.
  unfold InstanceLogger_isEnabledFor.
  now rewrite getEffectiveLevel_selected.
Qed.

(** X1. [log] inlines [isEnabledFor] faithfully: it hands the call to
    [_log] when [isEnabledFor(level)] is true and does nothing when it is
    false. *)
Theorem log_emits_iff_isEnabledFor
    (py311 : bool) (self : InstanceLogger) (lvl : Z) (msg : string)
    (args : list string) (kwargs : gmap string Z) (st : logging.State) :
  InstanceLogger_log py311 self lvl msg args kwargs st
  = if InstanceLogger_isEnabledFor self lvl st
    then logging._log (logger self) lvl msg args
           (with_stacklevel py311 kwargs) st
    else st.
Proof.
  rewrite log_unfold, isEnabledFor_unfold.
  now destruct (logging.disable st >=? lvl).
Qed.

(** X2. [log] changes nothing of the backend but the trace of emitted
    calls: the suppression threshold, the root logger and the registry
    (levels, handlers) stay as they were; the trace keeps its old records
    and gains at most one, which carries the adapter's logger, the level,
    the message and the arguments as given. *)
Theorem log_touches_only_the_trace
    (py311 : bool) (self : InstanceLogger) (lvl : Z) (msg : string)
    (args : list string) (kwargs : gmap string Z) (st : logging.State) :
  let st' := InstanceLogger_log py311 self lvl msg args kwargs st in
  logging.disable st' = logging.disable st
  /\ logging.root st' = logging.root st
  /\ logging.loggerDict st' = logging.loggerDict st
  /\ exists new,
       logging.log_calls st' = logging.log_calls st ++ new
       /\ (length new <= 1)%nat
       /\ Forall (fun c => logging.lc_logger c = logger self
                           /\ logging.lc_level c = lvl
                           /\ logging.lc_msg c = msg
                           /\ logging.lc_args c = args) new.
Proof.
  intros st'. subst st'. rewrite log_unfold.
  assert (Hnone : exists new : list logging.LogCall,
            logging.log_calls st = logging.log_calls st ++ new
            /\ (length new <= 1)%nat
            /\ Forall (fun c => logging.lc_logger c = logger self
                                /\ logging.lc_level c = lvl
                                /\ logging.lc_msg c = msg
                                /\ logging.lc_args c = args) new).
  { exists []. rewrite app_nil_r.
    repeat split; [simpl; lia | constructor]. }
  destruct (logging.disable st >=? lvl); [now repeat split|].
  destruct (lvl >=? spec_selected self st); [|now repeat split].
  repeat split. eexists. split; [apply log_calls__log|].
  split; [simpl; lia|]. repeat constructor.
Qed.

(** ** The convenience methods *)

(** X3. With echo True, [debug] never emits and [isEnabledFor(DEBUG)] is
    false, even when the backend logger itself is set to DEBUG; unless
    the manager suppresses INFO, [info], [warning], [error] and
    [critical] each emit at their own level whatever the backend levels
    are. *)
Theorem echo_true_methods
    (py311 : bool) (self : InstanceLogger) (msg : string)
    (args : list string) (kwargs : gmap string Z) (st : logging.State) :
  echo self = EchoTrue ->
  InstanceLogger_debug py311 self msg args kwargs st = st
  /\ InstanceLogger_isEnabledFor self logging.DEBUG st = false
  /\ (logging.disable st < logging.INFO ->
      let emitted lvl :=
        logging._log (logger self) lvl msg args
          (with_stacklevel py311 kwargs) st in
      InstanceLogger_info py311 self msg args kwargs st
        = emitted logging.INFO
      /\ InstanceLogger_warning py311 self msg args kwargs st
        = emitted logging.WARNING
      /\ InstanceLogger_warn py311 self msg args kwargs st
        = emitted logging.WARNING
      /\ InstanceLogger_error py311 self msg args kwargs st
        = emitted logging.ERROR
      /\ InstanceLogger_critical py311 self msg args kwargs st
        = emitted logging.CRITICAL).
Proof.
  intros He.
  assert (Hsel : spec_selected self st = logging.INFO)
    by (unfold spec_selected; now rewrite He).
  unfold InstanceLogger_debug, InstanceLogger_info, InstanceLogger_warn,
    InstanceLogger_warning, InstanceLogger_error, InstanceLogger_critical.
  rewrite isEnabledFor_unfold, !log_unfold, Hsel.
  split; [|split].
  - now destruct (logging.disable st >=? logging.DEBUG).
  - now destruct (logging.disable st >=? logging.DEBUG).
  - intros Hdis. cbv zeta beta.
    unfold logging.INFO, logging.WARNING, logging.ERROR,
      logging.CRITICAL in *.
    repeat match goal with
    | |- context [logging.disable st >=? ?l] =>
        destruct (logging.disable st >=? l) eqn:?; [lia|]
    end.
    repeat split.
Qed.

Lemma echo_true_methods_witness :
  InstanceLogger_debug true (mkInstanceLogger EchoTrue engine_name)
    "row" [] ∅ st_initial = st_initial
  /\ InstanceLogger_isEnabledFor (mkInstanceLogger EchoTrue engine_name)
       logging.DEBUG st_initial = false.
Proof.
  destruct (echo_true_methods true (mkInstanceLogger EchoTrue engine_name)
              "row" [] ∅ st_initial eq_refl) as (Hd & He & _).
  split; [exact Hd | exact He].
Defined.

(** X4. With echo "debug", unless the manager suppresses DEBUG, all of
    [debug], [info], [warning], [error] and [critical] emit at their own
    level whatever the backend levels are. *)
Theorem echo_debug_methods
    (py311 : bool) (self : InstanceLogger) (msg : string)
    (args : list string) (kwargs : gmap string Z) (st : logging.State) :
  echo self = EchoDebug ->
  logging.disable st < logging.DEBUG ->
  let emitted lvl :=
    logging._log (logger self) lvl msg args
      (with_stacklevel py311 kwargs) st in
  InstanceLogger_debug py311 self msg args kwargs st = emitted logging.DEBUG
  /\ InstanceLogger_info py311 self msg args kwargs st = emitted logging.INFO
  /\ InstanceLogger_warning py311 self msg args kwargs st
     = emitted logging.WARNING
  /\ InstanceLogger_error py311 self msg args kwargs st
     = emitted logging.ERROR
  /\ InstanceLogger_critical py311 self msg args kwargs st
     = emitted logging.CRITICAL.
Proof.
  intros He Hdis emitted. subst emitted. cbv beta.
  assert (Hsel : spec_selected self st = logging.DEBUG)
    by (unfold spec_selected; now rewrite He).
  unfold InstanceLogger_debug, InstanceLogger_info,
    InstanceLogger_warning, InstanceLogger_error, InstanceLogger_critical.
  rewrite !log_unfold, Hsel.
  unfold logging.DEBUG, logging.INFO, logging.WARNING, logging.ERROR,
    logging.CRITICAL in *.
  repeat match goal with
  | |- context [logging.disable st >=? ?l] =>
      destruct (logging.disable st >=? l) eqn:?; [lia|]
  end.
  repeat split.
Qed.

Lemma echo_debug_methods_witness :
  logging.disable st_initial < logging.DEBUG
  /\ InstanceLogger_debug false (mkInstanceLogger EchoDebug engine_name)
       "row" [] ∅ st_initial
     = logging._log engine_name logging.DEBUG "row" []
         (with_stacklevel false ∅) st_initial.
Proof.
  assert (Hd : logging.disable st_initial < logging.DEBUG)
    by (vm_compute; reflexivity).
  split; [exact Hd|].
  apply (echo_debug_methods false (mkInstanceLogger EchoDebug engine_name)
           "row" [] ∅ st_initial eq_refl Hd).
Defined.

(** X5. [exception] logs at ERROR and forces the keyword [exc_info] to 1,
    replacing a value the caller passed; the stack-depth hint is adjusted
    as for [log] and the other keywords are kept.  Where ERROR is not
    enabled it does nothing. *)
Theorem exception_logs_error_with_exc_info
    (py311 : bool) (self : InstanceLogger) (msg : string)
    (args : list string) (kwargs : gmap string Z) (st : logging.State) :
  let st' := InstanceLogger_exception py311 self msg args kwargs st in
  (InstanceLogger_isEnabledFor self logging.ERROR st = false -> st' = st)
  /\ (InstanceLogger_isEnabledFor self logging.ERROR st = true ->
      exists c,
        logging.log_calls st' = logging.log_calls st ++ [c]
        /\ logging.lc_logger c = logger self
        /\ logging.lc_level c = logging.ERROR
        /\ logging.lc_msg c = msg
        /\ logging.lc_args c = args
        /\ logging.lc_kwargs c !! "exc_info" = Some 1
        /\ logging.lc_kwargs c !! "stacklevel"
           = Some (default 1 (kwargs !! "stacklevel")
                   + STACKLEVEL_OFFSET py311)
        /\ (forall k, k <> "exc_info" -> k <> "stacklevel" ->
              logging.lc_kwargs c !! k = kwargs !! k)).
Proof.
  intros st'. subst st'. unfold InstanceLogger_exception.
  rewrite log_unfold, isEnabledFor_unfold.
  destruct (logging.disable st >=? logging.ERROR);
    [split; [reflexivity | discriminate]|].
  split; intros ->; [reflexivity|].
  eexists. split; [apply log_calls__log|].
  cbn [logging.lc_logger logging.lc_level logging.lc_msg logging.lc_args
       logging.lc_kwargs].
  repeat split.
  - rewrite with_stacklevel_other by discriminate. apply lookup_insert_eq.
  - rewrite with_stacklevel_lookup. rewrite lookup_insert_ne by discriminate.
    reflexivity.
  - intros k He Hs. rewrite with_stacklevel_other by exact Hs.
    apply lookup_insert_ne. congruence.
Qed.

Lemma exception_logs_error_with_exc_info_witness :
  exists c,
    logging.log_calls
      (InstanceLogger_exception true (mkInstanceLogger EchoTrue engine_name)
         "rollback failed" [] {[ "exc_info" := 0 ]} st_initial) = [c]
    /\ logging.lc_kwargs c !! "exc_info" = Some 1.
Proof.
  destruct (exception_logs_error_with_exc_info true
              (mkInstanceLogger EchoTrue engine_name) "rollback failed" []
              {[ "exc_info" := 0 ]} st_initial) as [_ H].
  destruct (H eq_refl) as (c & Hc & _ & _ & _ & _ & He & _).
  exists c. split; [exact Hc | exact He].
Defined.

(** ** What building a logger does to the backend *)

Lemma handlers_registered (name : string) (st : logging.State) :
  logging.handlers (logging.logger_at st name) <> [] ->
  is_Some (logging.loggerDict st !! name).
Proof.
  unfold logging.logger_at. destruct (logging.loggerDict st !! name); eauto.
  intros H. now elim H.
Qed.


Lemma log_calls_getLogger (name : string) (st : logging.State) :
  logging.log_calls (logging.getLogger name st) = logging.log_calls st.
Proof. unfold logging.getLogger. now destruct (_ !! _). Qed.

Lemma init_snd_cases (e : EchoFlag) (name : string) (st : logging.State) :
  snd (InstanceLogger_init e name st)
  = if bool_decide (logging.handlers (logging.logger_at st name) = [])
    then _add_default_handler name (logging.getLogger name st)
    else logging.getLogger name st.
Proof.
  unfold InstanceLogger_init. cbn [logger].
  rewrite echo_map_le_INFO, logger_at_getLogger. cbn [andb].
  now destruct (bool_decide _).
Qed.


Lemma instance_logger_snd (instance : Identified) (v : EchoFlag)
    (st : logging.State) :
  snd (instance_logger instance v st)
  = if in_False_None v
    then logging.getLogger (instance_name instance) st
    else snd (InstanceLogger_init v (instance_name instance) st).
Proof.
  unfold instance_logger. destruct (in_False_None v); [reflexivity|].
  now destruct (InstanceLogger_init v (instance_name instance) st).
Qed.



(** ** class_logger *)


(** ** The helpers inherited from Identified *)

Lemma in_False_None_cases (v : EchoFlag) :
  in_False_None v
  = match v with
    | EchoNone | EchoFalse => true
    | EchoTrue | EchoDebug => false
    end.
Proof. now destruct v. Qed.

Lemma binding_isEnabledFor_same (st st' : logging.State)
    (b : LoggerBinding) (lvl : Z) :
  same_levels st st' ->
  binding_isEnabledFor b lvl st = binding_isEnabledFor b lvl st'.
Proof.
  intros Hs. destruct b as [n | il]; cbn [binding_isEnabledFor].
  - now apply isEnabledFor_same.
  - unfold InstanceLogger_isEnabledFor, InstanceLogger_getEffectiveLevel,
      logging.getEffectiveLevel.
    rewrite (first_set_level_same st st' _ Hs).
    now destruct Hs as (-> & _).
Qed.

(** X11. For an instance whose class keeps the methods of [Identified],
    the helpers follow the echo flag just written: after "debug" they
    answer true unless the manager suppresses the level asked; after True
    [_should_log_debug] is false and [_should_log_info] is true unless
    INFO is suppressed; after None or False they answer as the instance's
    backend logger does. *)
Theorem identified_helpers_after_write
    (instance : Identified) (v : EchoFlag) (st : logging.State) :
  _should_log_debug (__class__ instance) = IdentifiedMethod ->
  _should_log_info (__class__ instance) = IdentifiedMethod ->
  let instance' := fst (instance_logger instance v st) in
  let st' := snd (instance_logger instance v st) in
  let name := instance_name instance in
  should_log_debug instance' st'
  = Some match v with
         | EchoDebug => negb (logging.disable st >=? logging.DEBUG)
         | EchoTrue => false
         | EchoNone | EchoFalse =>
             logging.isEnabledFor st name logging.DEBUG
         end
  /\ should_log_info instance' st'
  = Some match v with
         | EchoDebug | EchoTrue =>
             negb (logging.disable st >=? logging.INFO)
         | EchoNone | EchoFalse =>
             logging.isEnabledFor st name logging.INFO
         end.
Proof.
  intros Hd Hi instance' st' name.
  assert (Hs : same_levels st st') by apply same_levels_instance_logger.
  subst instance'. unfold should_log_debug, should_log_info.
  rewrite instance_logger_fst. cbn [__class__]. rewrite Hd, Hi.
  unfold call_should_log, get_logger. cbn [logger_slot fmap option_fmap
    option_map].
  rewrite <- !(binding_isEnabledFor_same st st' _ _ Hs).
  fold name.
  rewrite in_False_None_cases.
  destruct v; cbn [binding_isEnabledFor]; split; try reflexivity;
    unfold InstanceLogger_isEnabledFor, InstanceLogger_getEffectiveLevel;
    cbn [echo _echo_map];
    match goal with
    | |- context [logging.disable st >=? ?l] =>
        now destruct (logging.disable st >=? l)
    end.
Qed.

Lemma identified_helpers_after_write_witness :
  should_log_debug
    (fst (instance_logger (new_instance Engine None) EchoTrue st_initial))
    (snd (instance_logger (new_instance Engine None) EchoTrue st_initial))
  = Some false
  /\ should_log_info
    (fst (instance_logger (new_instance Engine None) EchoTrue st_initial))
    (snd (instance_logger (new_instance Engine None) EchoTrue st_initial))
  = Some true.
Proof.
  apply (identified_helpers_after_write (new_instance Engine None) EchoTrue
           st_initial eq_refl eq_refl).
Defined.

(** ** Sequences of echo writes *)

Lemma instance_logger_handlers (instance : Identified) (v : EchoFlag)
    (st : logging.State) :
  logging.handlers
    (logging.logger_at (snd (instance_logger instance v st))
       (instance_name instance))
  = handlers_after v
      (logging.handlers (logging.logger_at st (instance_name instance))).
Proof.
  rewrite instance_logger_snd. unfold handlers_after.
  destruct (in_False_None v); [now rewrite logger_at_getLogger|].
  rewrite init_snd_cases.
  destruct (bool_decide _) eqn:Hb; [|now rewrite logger_at_getLogger].
  apply bool_decide_eq_true_1 in Hb. unfold _add_default_handler.
  now rewrite logger_at_addHandler_eq, logger_at_getLogger, Hb.
Qed.

Lemma instance_logger_log_calls (instance : Identified) (v : EchoFlag)
    (st : logging.State) :
  logging.log_calls (snd (instance_logger instance v st))
  = logging.log_calls st.
Proof.
  rewrite instance_logger_snd. destruct (in_False_None v).
  - apply log_calls_getLogger.
  - rewrite init_snd_cases. destruct (bool_decide _);
      [unfold _add_default_handler; cbn|]; apply log_calls_getLogger.
Qed.

Lemma instance_name_after_write (instance : Identified) (v : EchoFlag)
    (st : logging.State) :
  instance_name (fst (instance_logger instance v st))
  = instance_name instance.
Proof. now rewrite instance_logger_fst. Qed.

Lemma write_all_cons (p : echo_property) (v : EchoFlag)
    (vs : list EchoFlag) (instance : Identified) (st : logging.State) :
  write_all p (v :: vs) instance st
  = write_all p vs (fst (instance_logger instance v st))
      (snd (instance_logger instance v st)).
Proof.
  cbn [write_all]. unfold echo_property_set.
  now destruct (instance_logger instance v st).
Qed.

Lemma write_all_app (p : echo_property) (vs ws : list EchoFlag)
    (instance : Identified) (st : logging.State) :
  write_all p (vs ++ ws) instance st
  = write_all p ws (fst (write_all p vs instance st))
      (snd (write_all p vs instance st)).
Proof.
  revert instance st. induction vs as [|v vs IH]; intros instance st.
  - reflexivity.
  - rewrite <- app_comm_cons, !write_all_cons. apply IH.
Qed.

Lemma write_all_frame (p : echo_property) (vs : list EchoFlag)
    (instance : Identified) (st : logging.State) :
  instance_name (fst (write_all p vs instance st)) = instance_name instance
  /\ logging.log_calls (snd (write_all p vs instance st))
     = logging.log_calls st
  /\ logging.handlers
       (logging.logger_at (snd (write_all p vs instance st))
          (instance_name instance))
     = (let old := logging.handlers
                     (logging.logger_at st (instance_name instance)) in
        if bool_decide (old = []) && any_override vs
        then [default_handler] else old).
Proof.
  revert instance st. induction vs as [|v vs IH]; intros instance st.
  - cbn. rewrite andb_false_r. repeat split.
  - rewrite write_all_cons.
    destruct (IH (fst (instance_logger instance v st))
                 (snd (instance_logger instance v st)))
      as (Hn & Hc & Hh).
    rewrite instance_name_after_write in Hn, Hh.
    rewrite instance_logger_handlers in Hh.
    rewrite instance_logger_log_calls in Hc.
    split; [exact Hn|]. split; [exact Hc|].
    rewrite Hh. cbv zeta. unfold handlers_after. cbn [any_override existsb].
    fold (any_override vs).
    destruct (in_False_None v); cbn [negb orb]; [reflexivity|].
    now destruct (logging.handlers
                    (logging.logger_at st (instance_name instance))).
Qed.

(** X12. After any sequence of echo writes on an instance the last write
    decides: reading [echo] gives the last value and the binding is the
    one that value calls for.  Nothing is emitted, and the logger's
    handlers are the ones it had, or the single default handler if it
    had none and some write in the sequence was True or "debug": writing
    None or False afterwards does not take the handler away. *)
Theorem write_all_last_wins
    (p : echo_property) (vs : list EchoFlag) (v : EchoFlag)
    (instance : Identified) (st : logging.State) :
  let instance' := fst (write_all p (vs ++ [v]) instance st) in
  let st' := snd (write_all p (vs ++ [v]) instance st) in
  let name := instance_name instance in
  let old := logging.handlers (logging.logger_at st name) in
  echo_property_get p (Some instance') = Some (inr v)
  /\ logger_slot instance'
     = Some (if in_False_None v then DirectLogger name
             else Adapter (mkInstanceLogger v name))
  /\ logging.log_calls st' = logging.log_calls st
  /\ logging.handlers (logging.logger_at st' name)
     = (if bool_decide (old = []) && any_override (vs ++ [v])
        then [default_handler] else old).
Proof.
  intros instance' st' name old.
  destruct (write_all_frame p (vs ++ [v]) instance st) as (_ & Hc & Hh).
  destruct (write_all_frame p vs instance st) as (Hn & _ & _).
  subst instance' st' name old.
  split; [|split; [|split; [exact Hc | exact Hh]]].
  - rewrite write_all_app, write_all_cons. cbn [write_all fst].
    now rewrite instance_logger_fst.
  - rewrite write_all_app, write_all_cons. cbn [write_all fst].
    now rewrite instance_logger_slot, Hn.
Qed.

(** ** Importing the module *)

Lemma logger_at_setLevel_ne (name n : string) (lvl : Z)
    (st : logging.State) :
  name <> n ->
  logging.logger_at (logging.setLevel name lvl st) n
  = logging.logger_at st n.
Proof.
  intros Hne. unfold logging.setLevel, logging.logger_at at 1. simpl.
  now rewrite lookup_insert_ne.
Qed.

Lemma logger_at_setLevel_eq (name : string) (lvl : Z) (st : logging.State) :
  logging.logger_at (logging.setLevel name lvl st) name
  = {| logging.level := lvl;
       logging.handlers := logging.handlers (logging.logger_at st name);
       logging.disabled := logging.disabled (logging.logger_at st name) |}.
Proof.
  unfold logging.setLevel, logging.logger_at at 1. simpl.
  now rewrite lookup_insert_eq.
Qed.

Lemma level_registered (name : string) (st : logging.State) :
  logging.level (logging.logger_at st name) <> logging.NOTSET ->
  is_Some (logging.loggerDict st !! name).
Proof.
  unfold logging.logger_at. destruct (logging.loggerDict st !! name); eauto.
  intros H. now elim H.
Qed.

Lemma module_import_cases (st : logging.State) :
  module_import st
  = if logging.level (logging.logger_at st rootlogger) =? logging.NOTSET
    then logging.setLevel rootlogger logging.WARN
           (logging.getLogger rootlogger st)
    else st.
Proof.
  unfold module_import. rewrite logger_at_getLogger.
  destruct (logging.level (logging.logger_at st rootlogger)
            =? logging.NOTSET) eqn:E; [reflexivity|].
  apply getLogger_registered, level_registered. lia.
Qed.

(** X13. Importing log.py gives the "sqlalchemy" logger the level WARN
    when it has none and keeps a level that was configured before; the
    logger's own level is then its effective level.  Its handlers and
    [disabled] flag, every other logger, the suppression threshold and
    the trace are untouched, and a second import changes nothing. *)
Theorem module_import_sets_warn (st : logging.State) :
  let st' := module_import st in
  let old := logging.logger_at st rootlogger in
  let lv := if logging.level old =? logging.NOTSET
            then logging.WARN else logging.level old in
  logging.logger_at st' rootlogger
  = {| logging.level := lv; logging.handlers := logging.handlers old;
       logging.disabled := logging.disabled old |}
  /\ logging.getEffectiveLevel st' rootlogger = lv
  /\ (forall n, n <> rootlogger ->
        logging.logger_at st' n = logging.logger_at st n)
  /\ logging.disable st' = logging.disable st
  /\ logging.root st' = logging.root st
  /\ logging.log_calls st' = logging.log_calls st
  /\ module_import st' = st'.
Proof.
  intros st' old lv.
  assert (Hat : logging.logger_at st' rootlogger
    = {| logging.level := lv; logging.handlers := logging.handlers old;
         logging.disabled := logging.disabled old |}).
  { subst st' lv old. rewrite module_import_cases.
    destruct (logging.level (logging.logger_at st rootlogger)
              =? logging.NOTSET) eqn:E.
    - now rewrite logger_at_setLevel_eq, logger_at_getLogger.
    - now destruct (logging.logger_at st rootlogger). }
  assert (Hlv : lv <> logging.NOTSET).
  { subst lv. destruct (logging.level old =? logging.NOTSET) eqn:E;
      [discriminate | lia]. }
  split; [exact Hat|]. split; [|split; [|split; [|split; [|split]]]].
  - unfold logging.getEffectiveLevel. cbn [logging.first_set_level].
    rewrite Hat. cbn [logging.level].
    destruct (lv =? logging.NOTSET) eqn:E; [lia | reflexivity].
  - intros n Hn. subst st'. rewrite module_import_cases.
    destruct (_ =? _); [|reflexivity].
    rewrite logger_at_setLevel_ne by congruence. apply logger_at_getLogger.
  - subst st'. rewrite module_import_cases. destruct (_ =? _);
      [|reflexivity]. cbn. unfold logging.getLogger.
    now destruct (_ !! _).
  - subst st'. rewrite module_import_cases. destruct (_ =? _);
      [|reflexivity]. cbn. unfold logging.getLogger.
    now destruct (_ !! _).
  - subst st'. rewrite module_import_cases. destruct (_ =? _);
      [|reflexivity]. cbn. apply log_calls_getLogger.
  - rewrite (module_import_cases st'), Hat. cbn [logging.level].
    destruct (lv =? logging.NOTSET) eqn:E; [lia | reflexivity].
Qed.

Lemma module_import_other (n : string) (st : logging.State) :
  n <> rootlogger ->
  logging.logger_at (module_import st) n = logging.logger_at st n.
Proof.
  intros Hn. rewrite module_import_cases. destruct (_ =? _); [|reflexivity].
  rewrite logger_at_setLevel_ne by congruence. apply logger_at_getLogger.
Qed.

Lemma module_import_level (st : logging.State) :
  logging.level (logging.logger_at (module_import st) rootlogger)
  = if logging.level (logging.logger_at st rootlogger) =? logging.NOTSET
    then logging.WARN
    else logging.level (logging.logger_at st rootlogger).
Proof.
  rewrite module_import_cases. destruct (_ =? _); [|reflexivity].
  now rewrite logger_at_setLevel_eq.
Qed.

Lemma module_import_disable (st : logging.State) :
  logging.disable (module_import st) = logging.disable st.
Proof.
  rewrite module_import_cases. destruct (_ =? _); [|reflexivity].
  cbn. unfold logging.getLogger. now destruct (_ !! _).
Qed.

Lemma ancestors_under_rootlogger (rest : string) :
  logging.ancestors (rootlogger +:+ "." +:+ rest)
  = rev (logging.dotted_prefixes "sqlalchemy." rest) ++ [rootlogger].
Proof. reflexivity. Qed.

Lemma first_set_level_unique (st : logging.State) (chain : list string)
    (n : string) :
  n ∈ chain ->
  (forall m, m ∈ chain -> m <> n ->
     logging.level (logging.logger_at st m) = logging.NOTSET) ->
  logging.level (logging.logger_at st n) <> logging.NOTSET ->
  logging.first_set_level st chain = logging.level (logging.logger_at st n).
Proof.
  intros Hin Hothers Hn. induction chain as [|m chain IH].
  - now apply elem_of_nil in Hin.
  - cbn [logging.first_set_level].
    destruct (decide (m = n)) as [->|Hne].
    + destruct (_ =? logging.NOTSET) eqn:E; [lia | reflexivity].
    + rewrite (Hothers m) by (auto; apply elem_of_cons; auto).
      cbn. apply IH.
      * apply elem_of_cons in Hin as [Heq | Hin]; [congruence | exact Hin].
      * intros k Hk Hkn. apply Hothers; [|exact Hkn].
        apply elem_of_cons. auto.
Qed.

(** X14. After the import, a logger named "sqlalchemy." + anything, with
    no level set on itself or on the loggers between it and "sqlalchemy",
    has the effective level of "sqlalchemy": WARN unless a level was
    configured there.  In the WARN case INFO is not enabled on the logger
    nor through an adapter whose echo is None or False, while an adapter
    with echo True is enabled for INFO unless the manager suppresses
    it.  The part after "sqlalchemy." is taken not to begin with a dot:
    the logging module does not link a name to the prefix that ends
    before two dots in a row. *)
Theorem unconfigured_descendants_follow_rootlogger
    (rest : string) (st : logging.State) :
  let name := rootlogger +:+ "." +:+ rest in
  let st' := module_import st in
  let lv := logging.level (logging.logger_at st rootlogger) in
  String.get 0 rest <> Some "."%char ->
  (forall n, n ∈ name :: logging.ancestors name -> n <> rootlogger ->
     logging.level (logging.logger_at st n) = logging.NOTSET) ->
  logging.getEffectiveLevel st' name
  = (if lv =? logging.NOTSET then logging.WARN else lv)
  /\ (lv = logging.NOTSET ->
      logging.isEnabledFor st' name logging.INFO = false
      /\ InstanceLogger_isEnabledFor (mkInstanceLogger EchoNone name)
           logging.INFO st' = false
      /\ InstanceLogger_isEnabledFor (mkInstanceLogger EchoFalse name)
           logging.INFO st' = false
      /\ (logging.disable st < logging.INFO ->
          InstanceLogger_isEnabledFor (mkInstanceLogger EchoTrue name)
            logging.INFO st' = true)).
Proof.
  intros name st' lv _ Hunset.
  assert (Heff : logging.getEffectiveLevel st' name
                 = (if lv =? logging.NOTSET then logging.WARN else lv)).
  { unfold logging.getEffectiveLevel.
    rewrite (first_set_level_unique st' _ rootlogger).
    - apply module_import_level.
    - subst name. rewrite ancestors_under_rootlogger.
      apply elem_of_cons. right. apply elem_of_app. right.
      apply elem_of_cons. now left.
    - intros m Hm Hne. subst st'. rewrite module_import_other by exact Hne.
      now apply Hunset.
    - subst st'. rewrite module_import_level. fold lv.
      destruct (lv =? logging.NOTSET) eqn:E; [discriminate | lia]. }
  split; [exact Heff|]. intros Hlv.
  assert (Hwarn : logging.getEffectiveLevel st' name = logging.WARN)
    by (rewrite Heff, Hlv; reflexivity).
  clear Heff. rename Hwarn into Heff.
  assert (Hd : logging.disable st' = logging.disable st)
    by apply module_import_disable.
  split; [|split; [|split]].
  - unfold logging.isEnabledFor. rewrite Heff.
    destruct (logging.disabled _); [reflexivity|].
    now destruct (logging.disable st' >=? logging.INFO).
  - unfold InstanceLogger_isEnabledFor, InstanceLogger_getEffectiveLevel.
    cbn [echo logger _echo_map]. cbn [Z.eqb logging.NOTSET]. rewrite Heff.
    now destruct (logging.disable st' >=? logging.INFO).
  - unfold InstanceLogger_isEnabledFor, InstanceLogger_getEffectiveLevel.
    cbn [echo logger _echo_map]. cbn [Z.eqb logging.NOTSET]. rewrite Heff.
    now destruct (logging.disable st' >=? logging.INFO).
  - intros Hdis.
    unfold InstanceLogger_isEnabledFor, InstanceLogger_getEffectiveLevel.
    cbn [echo logger _echo_map]. rewrite Hd.
    destruct (logging.disable st >=? logging.INFO) eqn:E; [lia|].
    reflexivity.
Qed.

Lemma unconfigured_descendants_follow_rootlogger_witness :
  logging.getEffectiveLevel
    (module_import
       {| logging.disable := 0; logging.root := logging.new_Logger;
          logging.loggerDict := ∅; logging.log_calls := [] |})
    "sqlalchemy.engine.Engine"
  = logging.WARN.
Proof.
  destruct (unconfigured_descendants_follow_rootlogger "engine.Engine"
              {| logging.disable := 0; logging.root := logging.new_Logger;
                 logging.loggerDict := ∅; logging.log_calls := [] |})
    as [Heff _].
  - cbn. discriminate.
  - intros n _ _. reflexivity.
  - exact Heff.
Defined.
